(** * Simulated NIRS signal generator: a shallow embedding of [app.py]

    The script computes, from a task name, a duration and a noise level,
    a time vector, two hemoglobin channels and a scalar oxygenation
    index, and then picks one of three status messages.

    Numbers.  The script works on float64 values; in the embedding of
    the whole script a float64 is read as the real number it denotes
    ([R]), which keeps the structure of the computation (which array is
    built from which, in which order, with which error) and leaves
    rounding, signed zeros and overflow out.  The one place where the
    script can leave the finite numbers on its own inputs, the division
    that yields [coi], has an explicit non-finite outcome there
    ([np.float64]).  Statements that hold of the real numbers only
    through an exact cancellation are not made about that embedding:
    for the lines concerned (71, 72 and 85) module [f64] gives the same
    arithmetic on IEEE 754 binary64 numbers.  Python [int]s are [Z],
    array lengths are [nat], one-dimensional arrays are [list R],
    dictionaries with string keys are [gmap string _], exceptions are
    the left summand of [result].

    Randomness.  [np.random.randn] is given the stream of draws it would
    produce as an explicit argument. *)

From Stdlib Require Import PrimFloat.
From Stdlib Require Import Reals Lra Lia ZArith List String.
From stdpp Require Import gmap strings.

Open Scope R_scope.

(** ** Exceptions *)

Inductive exn : Type :=
| KeyError (key : string)
| ValueError (msg : string).

Definition result (A : Type) : Type := (exn + A)%type.

Definition raise {A : Type} (e : exn) : result A := inl e.
Definition ret {A : Type} (a : A) : result A := inr a.
Definition bind {A B : Type} (m : result A) (k : A -> result B) : result B :=
  match m with
  | inl e => inl e
  | inr a => k a
  end.

Notation "'do' x <- m ; k" := (bind m (fun x => k))
  (at level 10, x name, m at level 100, k at level 200).

(** [d[k]] on a dictionary with string keys. *)
Definition getitem {V : Type} (d : gmap string V) (k : string) : result V :=
  match d !! k with
  | Some v => ret v
  | None => raise (KeyError k)
  end.

(** ** The library functions the script calls *)

Module math.

(** [1 * 2 * ... * n] on integers. *)
Definition product_upto (n : nat) : Z :=
  fold_left Z.mul (map Z.of_nat (seq 1 n)) 1%Z.

(** [math.factorial] on a Python [int]. *)
Definition factorial (n : Z) : result Z :=
  if (n <? 0)%Z
  then raise (ValueError "factorial() not defined for negative values")
  else ret (product_upto (Z.to_nat n)).

End math.

Module np.

Definition pi : R := PI.

(** A float64 scalar as the result of a division: finite, an infinity
    (with its sign) or NaN. *)
Inductive float64 : Type :=
| Finite (x : R)
| Inf (negative : bool)
| NaN.

(** [x / y] on float64 scalars (numpy warns on a zero divisor, it does
    not raise). *)
Definition divide (x y : R) : float64 :=
  if Req_dec_T y 0
  then (if Req_dec_T x 0 then NaN
        else if Rlt_dec x 0 then Inf true else Inf false)
  else Finite (x / y).

(** [a > c] for a float64 scalar [a] and a finite constant [c]. *)
Definition gt (a : float64) (c : R) : bool :=
  match a with
  | Finite x => if Rlt_dec c x then true else false
  | Inf negative => negb negative
  | NaN => false
  end.

(** [np.linspace(start, stop, num)], endpoint included: [arange(num)]
    times the step [delta / div], plus [start], and the last sample
    overwritten by [stop] when there are at least two.  With fewer than
    two samples the step is undefined and [arange(num)] is multiplied by
    [delta].  (For a zero step numpy divides before it multiplies, which
    denotes the same real numbers.) *)
Definition linspace (start stop : R) (num : Z) : result (list R) :=
  if (num <? 0)%Z
  then raise (ValueError "Number of samples must be non-negative")
  else
    let n := Z.to_nat num in
    let div := (num - 1)%Z in
    let delta := stop - start in
    let y := map INR (seq 0 n) in
    let y := if (0 <? div)%Z
             then map (fun k => k * (delta / IZR div)) y
             else map (fun k => k * delta) y in
    let y := map (fun v => v + start) y in
    ret (if (1 <? num)%Z then <[Nat.pred n := stop]> y else y).

Definition ones (n : nat) : list R := repeat 1 n.

Definition sin (a : list R) : list R := map Rtrigo_def.sin a.

(** scalar [*] array and array [/] scalar *)
Definition scale (c : R) (a : list R) : list R := map (fun x => c * x) a.
Definition divs (a : list R) (c : R) : list R := map (fun x => x / c) a.

Definition zip_with (f : R -> R -> R) : list R -> list R -> list R :=
  fix go (a b : list R) : list R :=
    match a, b with
    | x :: a', y :: b' => f x y :: go a' b'
    | _, _ => []
    end.

(** array [+] array, with numpy's broadcasting of a one-element
    operand; other length mismatches raise. *)
Definition add (a b : list R) : result (list R) :=
  if (length a =? length b)%nat then ret (zip_with Rplus a b)
  else match a, b with
       | [x], _ => ret (map (fun y => x + y) b)
       | _, [y] => ret (map (fun x => x + y) a)
       | _, _ => raise (ValueError "operands could not be broadcast together")
       end.

(** [a += b]: [b] is broadcast to the shape of [a], which is kept. *)
Definition iadd (a b : list R) : result (list R) :=
  if (length a =? length b)%nat then ret (zip_with Rplus a b)
  else match b with
       | [y] => ret (map (fun x => x + y) a)
       | _ => raise (ValueError "non-broadcastable output operand")
       end.

(** Sum of two sequences, the shorter one extended by zeros. *)
Fixpoint padd (a b : list R) : list R :=
  match a, b with
  | [], _ => b
  | _, [] => a
  | x :: a', y :: b' => (x + y) :: padd a' b'
  end.

(** The full discrete convolution: one shifted, scaled copy of [a] per
    tap of [v]. *)
Fixpoint convolve_full (a v : list R) : list R :=
  match v with
  | [] => []
  | y :: v' => padd (map (fun x => x * y) a) (0 :: convolve_full a v')
  end.

(** [np.convolve(a, v, mode="same")]: the operands are swapped so that
    [a] is the longer one, empty operands raise, and the middle
    [max(len a, len v)] samples of the full convolution are returned. *)
Definition convolve_same (a v : list R) : result (list R) :=
  let (a, v) := if (length a <? length v)%nat then (v, a) else (a, v) in
  if (length a =? 0)%nat then raise (ValueError "a cannot be empty")
  else if (length v =? 0)%nat then raise (ValueError "v cannot be empty")
  else ret (take (length a)
              (drop ((length v - 1) / 2)%nat (convolve_full a v))).

Definition sum (a : list R) : R := fold_right Rplus 0 a.

(** [np.mean]; on an empty array numpy returns NaN with a warning, a
    case the script's inputs exclude and the model leaves as [0 / 0]. *)
Definition mean (a : list R) : R := sum a / INR (length a).

Module random.

(** [np.random.randn(n)]: the next [n] draws of the generator. *)
Definition randn (draws : nat -> R) (n : nat) : list R :=
  map draws (seq 0 n).

End random.

End np.

(** ** The script *)

(** The choices of the sidebar's radio button (line 23). *)
Definition tasks : list string :=
  ["Resting State"; "Visual Task"; "Language Task"; "Motor Task";
   "Cognitive Test"]%string.

(** [hrf(t, peak, under, ratio)] on an array [t] (lines 34-39).  The
    two factorials are computed once; the powers, exponentials, products
    and quotients are elementwise on arrays that all have the shape of
    [t], and are written here as one map. *)
Definition hrf_with (t : list R) (peak under : Z) (ratio : R)
  : result (list R) :=
  do fp <- math.factorial peak;
  do fu <- math.factorial under;
  ret (map (fun x =>
              (powerRZ x peak * exp (- x)) / IZR fp
              - ratio * (powerRZ x under * exp (- x)) / IZR fu) t).

(** [hrf(t)] with the default arguments. *)
Definition hrf (t : list R) : result (list R) := hrf_with t 6 16 0.166.

Definition profile (amp freq : R) : gmap string R :=
  <["amp" := amp]> (<["freq" := freq]> ∅).

(** [task_params] (lines 44-50). *)
Definition task_params : gmap string (gmap string R) :=
  <["Resting State" := profile 0.2 0.1]>
  (<["Visual Task" := profile 1.0 0.25]>
  (<["Language Task" := profile 0.8 0.2]>
  (<["Motor Task" := profile 1.2 0.3]>
  (<["Cognitive Test" := profile 1.5 0.35]> ∅)))).

Record SimulationResult : Type := {
  sim_t : list R;
  sim_oxy : list R;
  sim_deoxy : list R;
  sim_coi : np.float64
}.

(** Line 59. *)
Definition time_vector (duration : Z) : result (list R) :=
  np.linspace 0 (IZR duration) (duration * 20).

(** Line 63. *)
Definition base_hrf (t : list R) : result (list R) :=
  do grid <- np.linspace 0 30 (Z.of_nat (length t));
  hrf grid.

(** The second summand of lines 64-67. *)
Definition smoothed_hrf (base : list R) : result (list R) :=
  np.convolve_same (np.divs (np.ones 5) 5) base.

(** The slow drift [np.sin(0.1 * np.pi * t)] of lines 71 and 72. *)
Definition drift (t : list R) : list R :=
  np.sin (np.scale (0.1 * np.pi) t).

(** Lines 64-68: the signal before the channels are derived. *)
Definition signal (params : gmap string R) (t base : list R)
    (noise_level : R) (draws : nat -> R) : result (list R) :=
  do amp <- getitem params "amp";
  do freq <- getitem params "freq";
  let osc := np.scale amp (np.sin (np.scale (2 * np.pi * freq) t)) in
  do sm <- smoothed_hrf base;
  do s <- np.add osc sm;
  np.iadd s (np.scale noise_level (np.random.randn draws (length t))).

(** The denominator of line 85. *)
Definition coi_denominator (oxy deoxy : list R) : R :=
  np.mean oxy + Rabs (np.mean deoxy) + 1e-5.

(** Line 85. *)
Definition coi (oxy deoxy : list R) : np.float64 :=
  np.divide (np.mean oxy) (coi_denominator oxy deoxy).

(** Lines 59-85 without the plot: what one press of the button
    computes. *)
Definition generate (task : string) (duration : Z) (noise_level : R)
    (draws : nat -> R) : result SimulationResult :=
  do t <- time_vector duration;
  do params <- getitem task_params task;
  do base <- base_hrf t;
  do s <- signal params t base noise_level draws;
  do oxy <- np.add s (np.scale 0.5 (drift t));
  do deoxy <- np.add (np.scale (-0.6) s) (np.scale 0.2 (drift t));
  ret {| sim_t := t; sim_oxy := oxy; sim_deoxy := deoxy;
         sim_coi := coi oxy deoxy |}.

(** The three messages of lines 89-94: [st.success], [st.warning] and
    [st.error]. *)
Inductive label : Type :=
| HighOxygenation
| ModerateOxygenation
| LowOxygenation.

(** Lines 89-94. *)
Definition classify (c : np.float64) : label :=
  if np.gt c 0.55 then HighOxygenation
  else if np.gt c 0.45 then ModerateOxygenation
  else LowOxygenation.

(** What the page shows after one run of the script (lines 55-96). *)
Inductive view : Type :=
| Idle
| Shown (r : SimulationResult) (l : label).

Definition app (start : bool) (task : string) (duration : Z)
    (noise_level : R) (draws : nat -> R) : result view :=
  if start then
    do r <- generate task duration noise_level draws;
    ret (Shown r (classify (sim_coi r)))
  else ret Idle.

(** ** Lines 71, 72 and 85 on binary64 numbers *)

(** The arithmetic of three lines on IEEE 754 binary64 numbers (round to
    nearest, ties to even), applied to the scalars the lines combine:
    one sample of the signal and of the drift for lines 71 and 72, the
    two means for line 85.  The constants are the binary64 values of the
    script's decimal literals. *)
Module f64.

(** [0.5], [0.6], [0.2] and [1e-5] *)
Definition half : float := 0x1p-1%float.
Definition six_tenths : float := 0x1.3333333333333p-1%float.
Definition two_tenths : float := 0x1.999999999999ap-3%float.
Definition guard : float := 0x1.4f8b588e368f1p-17%float.

(** Line 71 at one sample: [signal + 0.5 * drift]. *)
Definition oxy (signal drift : float) : float :=
  PrimFloat.add signal (PrimFloat.mul half drift).

(** Line 72 at one sample: [-0.6 * signal + 0.2 * drift]. *)
Definition deoxy (signal drift : float) : float :=
  PrimFloat.add (PrimFloat.mul (PrimFloat.opp six_tenths) signal)
    (PrimFloat.mul two_tenths drift).

(** The denominator of line 85 on the two means:
    [mean_oxy + abs(mean_deoxy) + 1e-5]. *)
Definition coi_denominator (mean_oxy mean_deoxy : float) : float :=
  PrimFloat.add (PrimFloat.add mean_oxy (PrimFloat.abs mean_deoxy)) guard.

(** Line 85 on the two means. *)
Definition coi (mean_oxy mean_deoxy : float) : float :=
  PrimFloat.div mean_oxy (coi_denominator mean_oxy mean_deoxy).

End f64.

(** ** The closed forms the properties are stated against *)

(** The double-gamma formula of the response function at one instant. *)
Definition hrf_formula (t : R) : R :=
  t ^ 6 * exp (- t) / IZR (math.product_upto 6)
  - 0.166 * t ^ 16 * exp (- t) / IZR (math.product_upto 16).

(** The tap [l[j]] of a window that may reach outside the array: zero
    when [j] is out of range. *)
Definition tap (l : list R) (j : Z) : R :=
  if (j <? 0)%Z then 0 else nth (Z.to_nat j) l 0.

(** The number of samples of a run. *)
Definition samples (duration : Z) : nat := Z.to_nat (duration * 20).

(** The sample instants of the two grids. *)
Definition instant (duration : Z) (i : nat) : R :=
  INR i * (IZR duration / IZR (duration * 20 - 1)).

Definition hrf_instant (duration : Z) (i : nat) : R :=
  INR i * (30 / IZR (duration * 20 - 1)).

(** The signal of a run without noise, and the draws that steer the
    noisy signal of a run onto a chosen target sequence. *)
Definition noise_free_signal (task : string) (duration : Z) : list R :=
  match (do t <- time_vector duration;
         do params <- getitem task_params task;
         do base <- base_hrf t;
         signal params t base 0 (fun _ => 0)) with
  | inr s => s
  | inl _ => []
  end.


(** The slow drift at sample [i]. *)
Definition drift_at (duration : Z) (i : nat) : R :=
  sin (0.1 * PI * instant duration i).


(** * Properties *)

(** ** The error monad *)


(** ** Arrays *)

Section Arrays.

Implicit Types (a b l : list R) (i n : nat) (c x : R).

Lemma nth_map_lt {A : Type} (f : A -> R) (l : list A) i d (d' : A) :
  (i < length l)%nat -> nth i (map f l) d = f (nth i l d').
Proof.
  revert i; induction l as [| y l IH]; intros [| i] Hi; simpl in *;
    try lia; [reflexivity | apply IH; lia].
Qed.

Lemma nth_scale c a i : nth i (np.scale c a) 0 = c * nth i a 0.
Proof.
  revert i; induction a as [| y a IH]; intros [| i]; simpl;
    try (symmetry; apply Rmult_0_r); [reflexivity | apply IH].
Qed.

Lemma nth_sin a i : nth i (np.sin a) 0 = sin (nth i a 0).
Proof.
  revert i; induction a as [| y a IH]; intros [| i]; simpl;
    try (symmetry; apply sin_0); [reflexivity | apply IH].
Qed.

Lemma length_scale c a : length (np.scale c a) = length a.
Proof. apply length_map. Qed.

Lemma length_sin a : length (np.sin a) = length a.
Proof. apply length_map. Qed.

Lemma length_zip_with (f : R -> R -> R) a b :
  length a = length b -> length (np.zip_with f a b) = length a.
Proof.
  revert b; induction a as [| x a IH]; intros [| y b] H; simpl in *;
    try discriminate; [reflexivity | f_equal; apply IH; lia].
Qed.

Lemma nth_zip_with (f : R -> R -> R) a b i :
  length a = length b -> (i < length a)%nat ->
  nth i (np.zip_with f a b) 0 = f (nth i a 0) (nth i b 0).
Proof.
  revert b i; induction a as [| x a IH]; intros [| y b] [| i] H Hi;
    simpl in *; try discriminate; try lia;
    [reflexivity | apply IH; lia].
Qed.

Lemma add_same_length a b :
  length a = length b -> np.add a b = inr (np.zip_with Rplus a b).
Proof. intros H. unfold np.add. rewrite H, Nat.eqb_refl. reflexivity. Qed.

Lemma iadd_same_length a b :
  length a = length b -> np.iadd a b = inr (np.zip_with Rplus a b).
Proof. intros H. unfold np.iadd. rewrite H, Nat.eqb_refl. reflexivity. Qed.

Lemma length_randn (draws : nat -> R) n :
  length (np.random.randn draws n) = n.
Proof. unfold np.random.randn. rewrite length_map. apply length_seq. Qed.

Lemma nth_randn (draws : nat -> R) n i :
  (i < n)%nat -> nth i (np.random.randn draws n) 0 = draws i.
Proof.
  intros Hi. unfold np.random.randn.
  rewrite (nth_map_lt draws (seq 0 n) i 0 0%nat)
    by (rewrite length_seq; exact Hi).
  rewrite seq_nth by exact Hi. reflexivity.
Qed.

End Arrays.

(** ** [np.linspace] *)

Lemma linspace_spec (start stop : R) (num : Z) :
  (2 <= num)%Z ->
  exists l, np.linspace start stop num = inr l
    /\ length l = Z.to_nat num
    /\ forall i, (i < Z.to_nat num)%nat ->
         nth i l 0 = start + INR i * ((stop - start) / IZR (num - 1)).
Proof.
  intros Hnum. unfold np.linspace.
  destruct (Z.ltb_spec num 0) as [? | _]; [lia |].
  destruct (Z.ltb_spec 0 (num - 1)) as [_ | ?]; [| lia].
  destruct (Z.ltb_spec 1 num) as [_ | ?]; [| lia].
  set (n := Z.to_nat num).
  set (step := (stop - start) / IZR (num - 1)).
  set (y := map (fun v => v + start) (map (fun k => k * step) (map INR (seq 0 n)))).
  assert (Hlen : length y = n)
    by (unfold y; rewrite !length_map; apply length_seq).
  exists (<[Nat.pred n := stop]> y). split; [reflexivity |].
  split; [rewrite length_insert; exact Hlen |].
  intros i Hi. rewrite nth_lookup, list_lookup_insert.
  destruct (decide (Nat.pred n = i /\ (Nat.pred n < length y)%nat)) as [[<- _] | Hne].
  - simpl. unfold step.
    assert (HI : INR (Nat.pred n) = IZR (num - 1)).
    { rewrite INR_IZR_INZ. f_equal. unfold n. lia. }
    rewrite HI. field. apply not_0_IZR. lia.
  - rewrite <- nth_lookup. unfold y.
    rewrite (nth_map_lt _ _ i 0 0)
      by (rewrite !length_map, length_seq; exact Hi).
    rewrite (nth_map_lt _ _ i 0 0)
      by (rewrite length_map, length_seq; exact Hi).
    rewrite (nth_map_lt _ _ i 0 0%nat) by (rewrite length_seq; exact Hi).
    rewrite seq_nth by exact Hi. simpl. ring.
Qed.

(** ** [np.convolve] *)

Section Convolution.

Implicit Types (a b v : list R) (i k : nat) (y : R).

Lemma nth_padd a b k : nth k (np.padd a b) 0 = nth k a 0 + nth k b 0.
Proof.
  revert b k; induction a as [| x a IH]; intros [| z b] [| k]; simpl;
    try ring; apply IH.
Qed.

Lemma length_padd a b :
  length (np.padd a b) = Nat.max (length a) (length b).
Proof.
  revert b; induction a as [| x a IH]; intros [| z b]; simpl;
    try reflexivity; f_equal; apply IH.
Qed.

Lemma nth_map_mult a y k : nth k (map (fun x => x * y) a) 0 = nth k a 0 * y.
Proof.
  revert k; induction a as [| x a IH]; intros [| k]; simpl;
    try ring; apply IH.
Qed.

(** Each tap of [v] contributes a copy of [a] shifted by its position. *)
Lemma nth_convolve_full_cons a y v k :
  nth k (np.convolve_full a (y :: v)) 0
  = nth k a 0 * y
    + match k with
      | O => 0
      | S k' => nth k' (np.convolve_full a v) 0
      end.
Proof.
  simpl np.convolve_full. rewrite nth_padd, nth_map_mult.
  destruct k; reflexivity.
Qed.

Lemma nth_convolve_full_S a y v k :
  nth (S k) (np.convolve_full a (y :: v)) 0
  = nth (S k) a 0 * y + nth k (np.convolve_full a v) 0.
Proof. apply nth_convolve_full_cons. Qed.

Lemma nth_convolve_full_0 a y v :
  nth 0 (np.convolve_full a (y :: v)) 0 = nth 0 a 0 * y.
Proof. rewrite nth_convolve_full_cons. ring. Qed.

Lemma nth_convolve_full_single a y k :
  nth k (np.convolve_full a [y]) 0 = nth k a 0 * y.
Proof.
  rewrite nth_convolve_full_cons. destruct k as [| [| k]]; simpl; ring.
Qed.

Lemma length_convolve_full a v :
  a <> [] -> v <> [] ->
  length (np.convolve_full a v) = (length a + length v - 1)%nat.
Proof.
  intros Ha. induction v as [| y v IH]; intros Hv; [congruence |].
  simpl np.convolve_full. rewrite length_padd, length_map. simpl length.
  destruct v as [| z v].
  - simpl. destruct a; [congruence | simpl; lia].
  - rewrite IH by discriminate. simpl. lia.
Qed.

Lemma nth_take_drop (l : list R) n off i :
  (i < n)%nat -> nth i (take n (drop off l)) 0 = nth (off + i) l 0.
Proof.
  intros Hi. rewrite !nth_lookup, lookup_take_lt, lookup_drop by exact Hi.
  reflexivity.
Qed.

End Convolution.

Lemma tap_of_nat (l : list R) (n : nat) : tap l (Z.of_nat n) = nth n l 0.
Proof.
  unfold tap. destruct (Z.ltb_spec (Z.of_nat n) 0) as [? | _]; [lia |].
  rewrite Nat2Z.id. reflexivity.
Qed.

Lemma tap_negative (l : list R) (j : Z) : (j < 0)%Z -> tap l j = 0.
Proof.
  intros Hj. unfold tap.
  destruct (Z.ltb_spec j 0) as [_ | ?]; [reflexivity | lia].
Qed.

Lemma smoothed_hrf_spec (base : list R) :
  (5 < length base)%nat ->
  exists sm, smoothed_hrf base = inr sm
    /\ length sm = length base
    /\ forall i, (i < length base)%nat ->
         nth i sm 0
         = 1 / 5 * (tap base (Z.of_nat i - 2) + tap base (Z.of_nat i - 1)
                    + tap base (Z.of_nat i) + tap base (Z.of_nat i + 1)
                    + tap base (Z.of_nat i + 2)).
Proof.
  intros Hlen. unfold smoothed_hrf, np.convolve_same.
  change (length (np.divs (np.ones 5) 5)) with 5%nat.
  destruct (Nat.ltb_spec 5 (length base)) as [_ | ?]; [| lia].
  destruct (Nat.eqb_spec (length base) 0) as [? | _]; [lia |].
  simpl Nat.eqb. cbv iota.
  eexists. split; [reflexivity |]. split.
  - rewrite length_take, length_drop, length_convolve_full.
    + simpl. lia.
    + destruct base; [simpl in Hlen; lia | discriminate].
    + discriminate.
  - intros i Hi. rewrite nth_take_drop by exact Hi.
    change ((5 - 1) / 2)%nat with 2%nat.
    unfold np.divs, np.ones. simpl repeat. simpl map.
    destruct i as [| [| i]].
    + rewrite (tap_negative base (Z.of_nat 0 - 2)) by lia.
      rewrite (tap_negative base (Z.of_nat 0 - 1)) by lia.
      replace (Z.of_nat 0 + 1)%Z with (Z.of_nat 1) by lia.
      replace (Z.of_nat 0 + 2)%Z with (Z.of_nat 2) by lia.
      rewrite !tap_of_nat. simpl plus.
      rewrite !nth_convolve_full_S, nth_convolve_full_0. field.
    + rewrite (tap_negative base (Z.of_nat 1 - 2)) by lia.
      replace (Z.of_nat 1 - 1)%Z with (Z.of_nat 0) by lia.
      replace (Z.of_nat 1 + 1)%Z with (Z.of_nat 2) by lia.
      replace (Z.of_nat 1 + 2)%Z with (Z.of_nat 3) by lia.
      rewrite !tap_of_nat. simpl plus.
      rewrite !nth_convolve_full_S, nth_convolve_full_0. field.
    + replace (Z.of_nat (S (S i)) - 2)%Z with (Z.of_nat i) by lia.
      replace (Z.of_nat (S (S i)) - 1)%Z with (Z.of_nat (S i)) by lia.
      replace (Z.of_nat (S (S i)) + 1)%Z with (Z.of_nat (S (S (S i)))) by lia.
      replace (Z.of_nat (S (S i)) + 2)%Z
        with (Z.of_nat (S (S (S (S i))))) by lia.
      rewrite !tap_of_nat. simpl plus.
      rewrite !nth_convolve_full_S, nth_convolve_full_single. field.
Qed.

(** ** The response function *)

Lemma product_upto_S (n : nat) :
  math.product_upto (S n) = (math.product_upto n * Z.of_nat (S n))%Z.
Proof.
  unfold math.product_upto. rewrite seq_S, map_app, fold_left_app.
  reflexivity.
Qed.

(** [math.product_upto] is the factorial. *)
Lemma product_upto_fact (n : nat) : math.product_upto n = Z.of_nat (fact n).
Proof.
  induction n as [| n IH]; [reflexivity |].
  rewrite product_upto_S, IH.
  change (fact (S n)) with (S n * fact n)%nat. lia.
Qed.

Lemma hrf_spec (ts : list R) : hrf ts = inr (map hrf_formula ts).
Proof.
  unfold hrf, hrf_with, math.factorial. cbn [Z.ltb Z.compare bind ret].
  change (Z.to_nat 6) with 6%nat. change (Z.to_nat 16) with 16%nat.
  f_equal. apply map_ext. intros x. unfold hrf_formula.
  change (powerRZ x 6) with (x ^ 6). change (powerRZ x 16) with (x ^ 16).
  unfold Rdiv. ring.
Qed.

(** ** The task table *)

Lemma task_params_known (task : string) :
  In task tasks ->
  exists amp freq,
    getitem task_params task = inr (profile amp freq)
    /\ getitem (profile amp freq) "amp" = inr amp
    /\ getitem (profile amp freq) "freq" = inr freq.
Proof.
  unfold tasks. simpl In.
  intros [<- | [<- | [<- | [<- | [<- | []]]]]];
    eexists _, _; (split; [reflexivity | split; reflexivity]).
Qed.

Lemma task_params_unknown (task : string) :
  ~ In task tasks -> getitem task_params task = inl (KeyError task).
Proof.
  unfold tasks. simpl In. intros Hn.
  unfold getitem, task_params.
  rewrite !lookup_insert_ne by (intros <-; apply Hn; tauto).
  rewrite lookup_empty. reflexivity.
Qed.

(** ** The stages of a run *)

Lemma samples_bounds (duration : Z) :
  (5 <= duration <= 30)%Z ->
  (100 <= samples duration <= 600)%nat
  /\ Z.of_nat (samples duration) = (duration * 20)%Z.
Proof. unfold samples. lia. Qed.

Lemma time_vector_spec (duration : Z) :
  (5 <= duration <= 30)%Z ->
  exists t, time_vector duration = inr t
    /\ length t = samples duration
    /\ forall i, (i < samples duration)%nat ->
         nth i t 0 = instant duration i.
Proof.
  intros Hd. unfold time_vector.
  destruct (linspace_spec 0 (IZR duration) (duration * 20)) as (t & Ht & Hl & Hn);
    [lia |].
  exists t. split; [exact Ht |]. split; [exact Hl |].
  intros i Hi. rewrite (Hn i Hi). unfold instant. rewrite Rminus_0_r. ring.
Qed.

Lemma base_hrf_spec (duration : Z) (t : list R) :
  (5 <= duration <= 30)%Z ->
  length t = samples duration ->
  exists grid base,
    np.linspace 0 30 (duration * 20) = inr grid
    /\ length grid = samples duration
    /\ (forall i, (i < samples duration)%nat ->
          nth i grid 0 = hrf_instant duration i)
    /\ base_hrf t = inr base
    /\ base = map hrf_formula grid
    /\ length base = samples duration
    /\ forall i, (i < samples duration)%nat ->
         nth i base 0 = hrf_formula (hrf_instant duration i).
Proof.
  intros Hd Ht. unfold base_hrf.
  destruct (samples_bounds duration Hd) as [_ Hz].
  rewrite Ht, Hz.
  destruct (linspace_spec 0 30 (duration * 20)) as (g & Hg & Hl & Hn); [lia |].
  assert (Hgrid : forall i, (i < samples duration)%nat ->
                    nth i g 0 = hrf_instant duration i).
  { intros i Hi. rewrite (Hn i Hi). unfold hrf_instant.
    rewrite Rminus_0_r. ring. }
  exists g, (map hrf_formula g).
  rewrite Hg. cbn [bind]. rewrite hrf_spec, length_map.
  repeat split; try assumption; try reflexivity.
  intros i Hi.
  rewrite (nth_map_lt hrf_formula g i 0 0) by (rewrite Hl; exact Hi).
  rewrite Hgrid by exact Hi. reflexivity.
Qed.

Lemma signal_spec (amp freq noise_level : R) (draws : nat -> R)
    (t base : list R) :
  (5 < length base)%nat ->
  length t = length base ->
  exists sm s,
    smoothed_hrf base = inr sm
    /\ length sm = length base
    /\ signal (profile amp freq) t base noise_level draws = inr s
    /\ length s = length base
    /\ forall i, (i < length base)%nat ->
         nth i s 0
         = amp * sin (2 * np.pi * freq * nth i t 0) + nth i sm 0
           + noise_level * draws i.
Proof.
  intros Hb Ht.
  destruct (smoothed_hrf_spec base Hb) as (sm & Hsm & Hlsm & _).
  set (osc := np.scale amp (np.sin (np.scale (2 * np.pi * freq) t))).
  assert (Hlosc : length osc = length base)
    by (unfold osc; rewrite length_scale, length_sin, length_scale; exact Ht).
  set (s0 := np.zip_with Rplus osc sm).
  assert (Hls0 : length s0 = length base)
    by (unfold s0; rewrite length_zip_with; congruence).
  set (z := np.scale noise_level (np.random.randn draws (length t))).
  assert (Hlz : length z = length base)
    by (unfold z; rewrite length_scale, length_randn; exact Ht).
  exists sm, (np.zip_with Rplus s0 z).
  split; [exact Hsm |]. split; [exact Hlsm |]. split.
  - unfold signal. change (getitem (profile amp freq) "amp") with (@inr exn R amp).
    change (getitem (profile amp freq) "freq") with (@inr exn R freq).
    cbn [bind]. rewrite Hsm. cbn [bind]. fold osc.
    rewrite (add_same_length osc sm) by congruence. cbn [bind]. fold s0 z.
    apply iadd_same_length. congruence.
  - split; [rewrite length_zip_with; congruence |].
    intros i Hi.
    rewrite nth_zip_with by congruence.
    unfold s0. rewrite nth_zip_with by congruence.
    unfold osc, z. rewrite !nth_scale, nth_sin, nth_scale.
    rewrite nth_randn by (rewrite Ht; exact Hi). reflexivity.
Qed.

(** Every stage of a run on valid inputs succeeds, and the samples of
    each stage are the expected functions of the previous ones. *)
Lemma generate_run (task : string) (duration : Z) (noise_level : R)
    (draws : nat -> R) :
  In task tasks ->
  (5 <= duration <= 30)%Z ->
  exists amp freq t base sm s oxy deoxy,
    getitem task_params task = inr (profile amp freq)
    /\ time_vector duration = inr t
    /\ base_hrf t = inr base
    /\ smoothed_hrf base = inr sm
    /\ signal (profile amp freq) t base noise_level draws = inr s
    /\ generate task duration noise_level draws
       = inr {| sim_t := t; sim_oxy := oxy; sim_deoxy := deoxy;
                sim_coi := coi oxy deoxy |}
    /\ (length t = samples duration /\ length sm = samples duration
        /\ length s = samples duration /\ length oxy = samples duration
        /\ length deoxy = samples duration)
    /\ (forall i, (i < samples duration)%nat -> nth i t 0 = instant duration i)
    /\ (forall i, (i < samples duration)%nat ->
          nth i s 0
          = amp * sin (2 * np.pi * freq * nth i t 0) + nth i sm 0
            + noise_level * draws i)
    /\ (forall i, (i < samples duration)%nat ->
          nth i oxy 0 = nth i s 0 + 0.5 * sin (0.1 * np.pi * nth i t 0))
    /\ (forall i, (i < samples duration)%nat ->
          nth i deoxy 0
          = -0.6 * nth i s 0 + 0.2 * sin (0.1 * np.pi * nth i t 0)).
Proof.
  intros Htask Hd.
  destruct (samples_bounds duration Hd) as [[Hlo _] _].
  destruct (task_params_known task Htask) as (amp & freq & Hp & _ & _).
  destruct (time_vector_spec duration Hd) as (t & Ht & Hlt & Hnt).
  destruct (base_hrf_spec duration t Hd Hlt)
    as (_ & base & _ & _ & _ & Hb & _ & Hlb & _).
  destruct (signal_spec amp freq noise_level draws t base)
    as (sm & s & Hsm & Hlsm & Hs & Hls & Hns); [lia | congruence |].
  rewrite Hlb in Hlsm, Hls, Hns.
  set (dr := drift t).
  assert (Hldr : length dr = samples duration)
    by (unfold dr, drift; rewrite length_sin, length_scale; exact Hlt).
  assert (Hndr : forall i, nth i dr 0 = sin (0.1 * np.pi * nth i t 0))
    by (intros i; unfold dr, drift; rewrite nth_sin, nth_scale; reflexivity).
  set (oxy := np.zip_with Rplus s (np.scale 0.5 dr)).
  set (deoxy := np.zip_with Rplus (np.scale (-0.6) s) (np.scale 0.2 dr)).
  exists amp, freq, t, base, sm, s, oxy, deoxy.
  split; [exact Hp |]. split; [exact Ht |]. split; [exact Hb |].
  split; [exact Hsm |]. split; [exact Hs |]. split.
  - unfold generate. rewrite Ht. cbn [bind]. rewrite Hp. cbn [bind].
    rewrite Hb. cbn [bind]. rewrite Hs. cbn [bind]. fold dr.
    rewrite (add_same_length s (np.scale 0.5 dr))
      by (rewrite length_scale; congruence).
    cbn [bind].
    rewrite (add_same_length (np.scale (-0.6) s) (np.scale 0.2 dr))
      by (rewrite !length_scale; congruence).
    reflexivity.
  - split.
    { unfold oxy, deoxy.
      rewrite !length_zip_with by (rewrite ?length_scale; congruence).
      rewrite length_scale. tauto. }
    split; [exact Hnt |]. split; [exact Hns |]. split.
    + intros i Hi. unfold oxy.
      rewrite nth_zip_with
        by (rewrite ?length_scale; first [congruence | rewrite Hls; exact Hi]).
      rewrite nth_scale, Hndr. reflexivity.
    + intros i Hi. unfold deoxy.
      rewrite nth_zip_with
        by (rewrite ?length_scale; first [congruence | rewrite Hls; exact Hi]).
      rewrite !nth_scale, Hndr. reflexivity.
Qed.

(** ** The sampling grid *)

Lemma step_positive (duration : Z) :
  (5 <= duration <= 30)%Z -> 0 < IZR duration / IZR (duration * 20 - 1).
Proof.
  intros Hd. apply Rdiv_lt_0_compat; apply IZR_lt; lia.
Qed.

Lemma instant_first (duration : Z) : instant duration 0 = 0.
Proof. unfold instant. simpl INR. ring. Qed.

Lemma instant_last (duration : Z) :
  (5 <= duration <= 30)%Z ->
  instant duration (samples duration - 1) = IZR duration.
Proof.
  intros Hd. unfold instant.
  replace (INR (samples duration - 1)) with (IZR (duration * 20 - 1)).
  - field. apply not_0_IZR. lia.
  - rewrite INR_IZR_INZ. f_equal. unfold samples. lia.
Qed.

Lemma instant_increasing (duration : Z) (i : nat) :
  (5 <= duration <= 30)%Z -> instant duration i < instant duration (S i).
Proof.
  intros Hd. unfold instant. rewrite S_INR.
  pose proof (step_positive duration Hd). lra.
Qed.

Lemma instant_range (duration : Z) (i : nat) :
  (5 <= duration <= 30)%Z -> (i < samples duration)%nat ->
  0 <= instant duration i <= IZR duration.
Proof.
  intros Hd Hi. rewrite <- (instant_last duration Hd).
  pose proof (step_positive duration Hd) as Hs. unfold instant. split.
  - apply Rmult_le_pos; [apply pos_INR | lra].
  - apply Rmult_le_compat_r; [lra |]. apply le_INR. lia.
Qed.

(** ** The claims *)

(** C2. For a valid task and a duration in [5, 30] the run succeeds and
    the three output sequences all have [duration * 20] samples. *)
Theorem length_invariant (task : string) (duration : Z) (noise_level : R)
    (draws : nat -> R) :
  In task tasks ->
  (5 <= duration <= 30)%Z ->
  exists r, generate task duration noise_level draws = inr r
    /\ Z.of_nat (length (sim_t r)) = (duration * 20)%Z
    /\ Z.of_nat (length (sim_oxy r)) = (duration * 20)%Z
    /\ Z.of_nat (length (sim_deoxy r)) = (duration * 20)%Z.
Proof.
  intros Htask Hd.
  destruct (generate_run task duration noise_level draws Htask Hd)
    as (amp & freq & t & base & sm & s & oxy & deoxy & _ & _ & _ & _ & _
        & Hg & (Hlt & _ & _ & Hlo & Hld) & _).
  destruct (samples_bounds duration Hd) as [_ Hz].
  eexists. split; [exact Hg |]. simpl. rewrite Hlt, Hlo, Hld. tauto.
Qed.

Lemma length_invariant_witness :
  In "Visual Task"%string tasks /\ (5 <= 15 <= 30)%Z
  /\ exists r, generate "Visual Task" 15 0 (fun _ => 0) = inr r
       /\ Z.of_nat (length (sim_t r)) = (15 * 20)%Z
       /\ Z.of_nat (length (sim_oxy r)) = (15 * 20)%Z
       /\ Z.of_nat (length (sim_deoxy r)) = (15 * 20)%Z.
Proof.
  split; [simpl; tauto |]. split; [lia |].
  apply (length_invariant "Visual Task" 15 0 (fun _ => 0));
    [simpl; tauto | lia].
Defined.

(** C3. For a valid duration the time vector of the run starts at 0, ends
    at exactly [duration] and is strictly increasing. *)
Theorem time_axis (task : string) (duration : Z) (noise_level : R)
    (draws : nat -> R) :
  In task tasks ->
  (5 <= duration <= 30)%Z ->
  exists r, generate task duration noise_level draws = inr r
    /\ nth 0 (sim_t r) 0 = 0
    /\ nth (length (sim_t r) - 1) (sim_t r) 0 = IZR duration
    /\ forall i, (S i < length (sim_t r))%nat ->
         nth i (sim_t r) 0 < nth (S i) (sim_t r) 0.
Proof.
  intros Htask Hd.
  destruct (generate_run task duration noise_level draws Htask Hd)
    as (amp & freq & t & base & sm & s & oxy & deoxy & _ & _ & _ & _ & _
        & Hg & (Hlt & _) & Hnt & _).
  destruct (samples_bounds duration Hd) as [[Hlo _] _].
  eexists. split; [exact Hg |]. simpl. rewrite Hlt. repeat split.
  - rewrite Hnt by lia. apply instant_first.
  - rewrite Hnt by lia. apply instant_last. exact Hd.
  - intros i Hi. rewrite !Hnt by lia. apply instant_increasing. exact Hd.
Qed.

Lemma time_axis_witness :
  In "Motor Task"%string tasks /\ (5 <= 5 <= 30)%Z
  /\ exists r, generate "Motor Task" 5 0.1 (fun _ => 1) = inr r
       /\ nth 0 (sim_t r) 0 = 0
       /\ nth (length (sim_t r) - 1) (sim_t r) 0 = IZR 5
       /\ forall i, (S i < length (sim_t r))%nat ->
            nth i (sim_t r) 0 < nth (S i) (sim_t r) 0.
Proof.
  split; [simpl; tauto |]. split; [lia |].
  apply (time_axis "Motor Task" 5 0.1 (fun _ => 1)); [simpl; tauto | lia].
Defined.

(** With a zero noise level the noise vector is zero whatever was
    drawn. *)
Lemma scale_0_randn (draws : nat -> R) (n : nat) :
  np.scale 0 (np.random.randn draws n) = repeat 0 n.
Proof.
  unfold np.scale, np.random.randn. rewrite map_map.
  generalize 0%nat at 1 as k.
  induction n as [| n IH]; intros k; simpl; [reflexivity |].
  rewrite Rmult_0_l, IH. reflexivity.
Qed.

Lemma signal_noise_free (params : gmap string R) (t base : list R)
    (draws1 draws2 : nat -> R) :
  signal params t base 0 draws1 = signal params t base 0 draws2.
Proof. unfold signal. rewrite !scale_0_randn. reflexivity. Qed.

(** C4. With a zero noise level, two runs on the same valid task and
    duration but with unrelated draws both succeed and return the same
    result, hence the same two channels. *)
Theorem zero_noise_deterministic (task : string) (duration : Z)
    (draws1 draws2 : nat -> R) :
  In task tasks ->
  (5 <= duration <= 30)%Z ->
  exists r1 r2,
    generate task duration 0 draws1 = inr r1
    /\ generate task duration 0 draws2 = inr r2
    /\ sim_oxy r1 = sim_oxy r2
    /\ sim_deoxy r1 = sim_deoxy r2.
Proof.
  intros Htask Hd.
  destruct (generate_run task duration 0 draws1 Htask Hd)
    as (amp & freq & t & base & sm & s & oxy & deoxy & _ & _ & _ & _ & _
        & Hg & _).
  assert (Heq : generate task duration 0 draws2
                = generate task duration 0 draws1).
  { unfold generate.
    destruct (time_vector duration) as [e | t']; [reflexivity |].
    cbn [bind].
    destruct (getitem task_params task) as [e | p]; [reflexivity |].
    cbn [bind]. destruct (base_hrf t') as [e | b]; [reflexivity |].
    cbn [bind]. rewrite (signal_noise_free p t' b draws2 draws1).
    reflexivity. }
  eexists _, _. split; [exact Hg |]. split; [rewrite Heq; exact Hg |].
  split; reflexivity.
Qed.

Lemma zero_noise_deterministic_witness :
  In "Language Task"%string tasks /\ (5 <= 10 <= 30)%Z
  /\ exists r1 r2,
       generate "Language Task" 10 0 (fun _ => 3) = inr r1
       /\ generate "Language Task" 10 0 (fun i => - INR i) = inr r2
       /\ sim_oxy r1 = sim_oxy r2
       /\ sim_deoxy r1 = sim_deoxy r2.
Proof.
  split; [simpl; tauto |]. split; [lia |].
  apply (zero_noise_deterministic "Language Task" 10
           (fun _ => 3) (fun i => - INR i)); [simpl; tauto | lia].
Defined.

(** C5. The classifier returns the high label above 0.55, the moderate
    label above 0.45 and up to 0.55 included, and the low label up to
    0.45 included; so 0.56 is high, 0.50 is moderate and 0.45 is low. *)
Theorem classify_thresholds :
  (forall c : R,
      (0.55 < c -> classify (np.Finite c) = HighOxygenation)
      /\ (0.45 < c <= 0.55 -> classify (np.Finite c) = ModerateOxygenation)
      /\ (c <= 0.45 -> classify (np.Finite c) = LowOxygenation))
  /\ classify (np.Finite 0.56) = HighOxygenation
  /\ classify (np.Finite 0.50) = ModerateOxygenation
  /\ classify (np.Finite 0.45) = LowOxygenation.
Proof.
  assert (H : forall c : R,
             (0.55 < c -> classify (np.Finite c) = HighOxygenation)
             /\ (0.45 < c <= 0.55
                 -> classify (np.Finite c) = ModerateOxygenation)
             /\ (c <= 0.45 -> classify (np.Finite c) = LowOxygenation)).
  { intros c. unfold classify, np.gt.
    destruct (Rlt_dec 0.55 c) as [H1 | H1];
      destruct (Rlt_dec 0.45 c) as [H2 | H2];
      repeat split; intros; try reflexivity; lra. }
  split; [exact H |].
  split; [apply (H 0.56); lra |].
  split; [apply (H 0.50); lra | apply (H 0.45); lra].
Qed.

Lemma classify_thresholds_witness :
  0.55 < 0.7 /\ classify (np.Finite 0.7) = HighOxygenation
  /\ 0.45 < 0.55 <= 0.55 /\ classify (np.Finite 0.55) = ModerateOxygenation
  /\ 0.3 <= 0.45 /\ classify (np.Finite 0.3) = LowOxygenation.
Proof.
  split; [lra |].
  split; [apply (proj1 classify_thresholds 0.7); lra |].
  split; [lra |].
  split; [apply (proj1 classify_thresholds 0.55); lra |].
  split; [lra |].
  apply (proj1 classify_thresholds 0.3); lra.
Defined.



Lemma hrf_instant_range (duration : Z) (i : nat) :
  (5 <= duration <= 30)%Z -> (i < samples duration)%nat ->
  0 <= hrf_instant duration i <= 30.
Proof.
  intros Hd Hi. unfold hrf_instant.
  assert (Hp : 0 < IZR (duration * 20 - 1)) by (apply IZR_lt; lia).
  assert (Hs : 0 < 30 / IZR (duration * 20 - 1))
    by (apply Rdiv_lt_0_compat; lra).
  assert (Hle : INR i <= IZR (duration * 20 - 1)).
  { rewrite INR_IZR_INZ. apply IZR_le. unfold samples in Hi. lia. }
  split.
  - apply Rmult_le_pos; [apply pos_INR | lra].
  - replace 30 with (IZR (duration * 20 - 1) * (30 / IZR (duration * 20 - 1)))
      at 2 by (field; lra).
    apply Rmult_le_compat_r; lra.
Qed.

(** C7. The response function is the double-gamma formula with the
    constants 6, 16 and 0.166 (720 and 20922789888000 being the two
    factorials); it returns a value on every array, and on a valid
    duration the grid it is given lies in [0, 30] and it returns the
    formula's values there. *)
Theorem hrf_closed_form :
  (Z.of_nat (fact 6) = 720 /\ Z.of_nat (fact 16) = 20922789888000)%Z
  /\ (forall ts : list R,
         hrf ts
         = inr (map (fun t => t ^ 6 * exp (- t) / 720
                              - 0.166 * t ^ 16 * exp (- t) / 20922789888000)
                  ts))
  /\ forall duration : Z,
       (5 <= duration <= 30)%Z ->
       exists t grid,
         time_vector duration = inr t
         /\ np.linspace 0 30 (Z.of_nat (length t)) = inr grid
         /\ Forall (fun x => 0 <= x <= 30) grid
         /\ base_hrf t = inr (map hrf_formula grid).
Proof.
  split; [split; rewrite <- product_upto_fact; reflexivity |].
  split; [intros ts; apply hrf_spec |].
  intros duration Hd.
  destruct (samples_bounds duration Hd) as [_ Hz].
  destruct (time_vector_spec duration Hd) as (t & Ht & Hlt & _).
  destruct (base_hrf_spec duration t Hd Hlt)
    as (grid & base & Hg & Hlg & Hng & Hb & -> & _).
  exists t, grid. rewrite Hlt, Hz.
  split; [exact Ht |]. split; [exact Hg |]. split; [| exact Hb].
  apply (Forall_nth _ 0). intros i Hi. rewrite Hlg in Hi.
  rewrite Hng by exact Hi. apply hrf_instant_range; assumption.
Qed.

Lemma hrf_closed_form_witness :
  (5 <= 30 <= 30)%Z
  /\ exists t grid,
       time_vector 30 = inr t
       /\ np.linspace 0 30 (Z.of_nat (length t)) = inr grid
       /\ Forall (fun x => 0 <= x <= 30) grid
       /\ base_hrf t = inr (map hrf_formula grid).
Proof.
  assert (Hd : (5 <= 30 <= 30)%Z) by lia.
  split; [exact Hd |].
  exact (proj2 (proj2 hrf_closed_form) 30%Z Hd).
Defined.



(** C9. With a zero noise level, on a valid task (amplitude and
    frequency as looked up in the table) and a valid duration, every
    sample of the two channels is the closed form in the time sample and
    the smoothed response sample of the same index. *)
Theorem noise_free_closed_form (task : string) (duration : Z)
    (draws : nat -> R) :
  In task tasks ->
  (5 <= duration <= 30)%Z ->
  exists params amp freq t base sm r,
    getitem task_params task = inr params
    /\ getitem params "amp" = inr amp
    /\ getitem params "freq" = inr freq
    /\ time_vector duration = inr t
    /\ base_hrf t = inr base
    /\ smoothed_hrf base = inr sm
    /\ generate task duration 0 draws = inr r
    /\ sim_t r = t
    /\ forall i, (i < length t)%nat ->
         nth i (sim_oxy r) 0
         = amp * sin (2 * PI * freq * nth i t 0) + nth i sm 0
           + 0.5 * sin (0.1 * PI * nth i t 0)
         /\ nth i (sim_deoxy r) 0
            = -0.6 * (amp * sin (2 * PI * freq * nth i t 0) + nth i sm 0)
              + 0.2 * sin (0.1 * PI * nth i t 0).
Proof.
  intros Htask Hd.
  destruct (generate_run task duration 0 draws Htask Hd)
    as (amp & freq & t & base & sm & s & oxy & deoxy & Hp & Ht & Hb & Hsm
        & _ & Hg & (Hlt & _) & _ & Hns & Hno & Hnd).
  exists (profile amp freq), amp, freq, t, base, sm.
  eexists. split; [exact Hp |].
  split; [reflexivity |]. split; [reflexivity |].
  split; [exact Ht |]. split; [exact Hb |]. split; [exact Hsm |].
  split; [exact Hg |]. split; [reflexivity |].
  intros i Hi. rewrite Hlt in Hi. simpl.
  rewrite (Hno i Hi), (Hnd i Hi), (Hns i Hi). unfold np.pi.
  split; ring.
Qed.

Lemma noise_free_closed_form_witness :
  In "Visual Task"%string tasks /\ (5 <= 15 <= 30)%Z
  /\ exists params amp freq t base sm r,
       getitem task_params "Visual Task" = inr params
       /\ getitem params "amp" = inr amp
       /\ getitem params "freq" = inr freq
       /\ time_vector 15 = inr t
       /\ base_hrf t = inr base
       /\ smoothed_hrf base = inr sm
       /\ generate "Visual Task" 15 0 (fun _ => 2) = inr r
       /\ sim_t r = t
       /\ forall i, (i < length t)%nat ->
            nth i (sim_oxy r) 0
            = amp * sin (2 * PI * freq * nth i t 0) + nth i sm 0
              + 0.5 * sin (0.1 * PI * nth i t 0)
            /\ nth i (sim_deoxy r) 0
               = -0.6 * (amp * sin (2 * PI * freq * nth i t 0) + nth i sm 0)
                 + 0.2 * sin (0.1 * PI * nth i t 0).
Proof.
  split; [simpl; tauto |]. split; [lia |].
  apply (noise_free_closed_form "Visual Task" 15 (fun _ => 2));
    [simpl; tauto | lia].
Defined.

(** C10, as stated, fails: in binary64 arithmetic the two lines do not
    cancel the signal exactly.  For the sample values 1 and 1 of signal
    and drift, and again for 0.7 and 0.9, [deoxy + 0.6 * oxy == 0.5 *
    drift] is false. *)
Lemma channels_relation_inexact_f64 :
  PrimFloat.eqb
    (PrimFloat.add (f64.deoxy 1 1) (PrimFloat.mul f64.six_tenths (f64.oxy 1 1)))
    (PrimFloat.mul f64.half 1) = false
  /\ PrimFloat.eqb
       (PrimFloat.add
          (f64.deoxy 0x1.6666666666666p-1 0x1.ccccccccccccdp-1)
          (PrimFloat.mul f64.six_tenths
             (f64.oxy 0x1.6666666666666p-1 0x1.ccccccccccccdp-1)))
       (PrimFloat.mul f64.half 0x1.ccccccccccccdp-1) = false.
Proof. split; vm_compute; reflexivity. Qed.

(** C10, amended. On valid inputs, whatever the noise level and the
    draws, the run has [20 * duration] samples in each sequence and both
    channels are derived, sample by sample, from one and the same noisy
    signal [s] of lines 64-68: [oxy = s + 0.5 * sin (0.1 pi t)] and
    [deoxy = -0.6 * s + 0.2 * sin (0.1 pi t)]; at the first sample, where
    the drift is zero, [deoxy + 0.6 * oxy] is exactly zero. *)
Theorem channels_share_signal (task : string) (duration : Z)
    (noise_level : R) (draws : nat -> R) :
  In task tasks ->
  (5 <= duration <= 30)%Z ->
  exists params t base s r,
    getitem task_params task = inr params
    /\ time_vector duration = inr t
    /\ base_hrf t = inr base
    /\ signal params t base noise_level draws = inr s
    /\ generate task duration noise_level draws = inr r
    /\ sim_t r = t
    /\ Z.of_nat (length t) = (duration * 20)%Z
    /\ length s = length t
    /\ length (sim_oxy r) = length t
    /\ length (sim_deoxy r) = length t
    /\ (forall i, (i < length t)%nat ->
          nth i (sim_oxy r) 0
          = nth i s 0 + 0.5 * sin (0.1 * PI * nth i t 0)
          /\ nth i (sim_deoxy r) 0
             = -0.6 * nth i s 0 + 0.2 * sin (0.1 * PI * nth i t 0))
    /\ nth 0 (sim_deoxy r) 0 + 0.6 * nth 0 (sim_oxy r) 0 = 0.
Proof.
  intros Htask Hd.
  destruct (generate_run task duration noise_level draws Htask Hd)
    as (amp & freq & t & base & sm & s & oxy & deoxy & Hp & Ht & Hb & _
        & Hs & Hg & (Hlt & _ & Hls & Hlo & Hld) & Hnt & _ & Hno & Hnd).
  destruct (samples_bounds duration Hd) as [[Hlow _] Hz].
  exists (profile amp freq), t, base, s. eexists.
  split; [exact Hp |]. split; [exact Ht |]. split; [exact Hb |].
  split; [exact Hs |]. split; [exact Hg |]. simpl.
  split; [reflexivity |]. rewrite Hlt.
  split; [exact Hz |]. split; [exact Hls |]. split; [exact Hlo |].
  split; [exact Hld |]. split.
  - intros i Hi. rewrite (Hno i Hi), (Hnd i Hi). unfold np.pi.
    split; reflexivity.
  - rewrite (Hno 0%nat), (Hnd 0%nat), (Hnt 0%nat) by lia.
    rewrite instant_first. unfold np.pi.
    rewrite Rmult_0_r, sin_0. lra.
Qed.

Lemma channels_share_signal_witness :
  In "Resting State"%string tasks /\ (5 <= 20 <= 30)%Z
  /\ exists params t base s r,
       getitem task_params "Resting State" = inr params
       /\ time_vector 20 = inr t
       /\ base_hrf t = inr base
       /\ signal params t base 0.5 (fun i => INR i - 7) = inr s
       /\ generate "Resting State" 20 0.5 (fun i => INR i - 7) = inr r
       /\ sim_t r = t
       /\ Z.of_nat (length t) = (20 * 20)%Z
       /\ length s = length t
       /\ length (sim_oxy r) = length t
       /\ length (sim_deoxy r) = length t
       /\ (forall i, (i < length t)%nat ->
             nth i (sim_oxy r) 0
             = nth i s 0 + 0.5 * sin (0.1 * PI * nth i t 0)
             /\ nth i (sim_deoxy r) 0
                = -0.6 * nth i s 0 + 0.2 * sin (0.1 * PI * nth i t 0))
       /\ nth 0 (sim_deoxy r) 0 + 0.6 * nth 0 (sim_oxy r) 0 = 0.
Proof.
  split; [simpl; tauto |]. split; [lia |].
  apply (channels_share_signal "Resting State" 20 0.5
           (fun i => INR i - 7)); [simpl; tauto | lia].
Defined.

(** ** Means *)



(** ** The index *)


(** A run seen from its noise-free signal: the noise is added sample by
    sample, and the channels follow. *)
Lemma generate_noise (task : string) (duration : Z) (noise_level : R)
    (draws : nat -> R) :
  In task tasks ->
  (5 <= duration <= 30)%Z ->
  exists r, generate task duration noise_level draws = inr r
    /\ length (sim_oxy r) = samples duration
    /\ length (sim_deoxy r) = samples duration
    /\ forall i, (i < samples duration)%nat ->
         nth i (sim_oxy r) 0
         = nth i (noise_free_signal task duration) 0 + noise_level * draws i
           + 0.5 * drift_at duration i
         /\ nth i (sim_deoxy r) 0
            = -0.6 * (nth i (noise_free_signal task duration) 0
                      + noise_level * draws i)
              + 0.2 * drift_at duration i.
Proof.
  intros Htask Hd.
  destruct (generate_run task duration noise_level draws Htask Hd)
    as (amp & freq & t & base & sm & s & oxy & deoxy & Hp & Ht & Hb & Hsm
        & _ & Hg & (_ & _ & _ & Hlo & Hld) & Hnt & Hns & Hno & Hnd).
  destruct (generate_run task duration 0 (fun _ => 0) Htask Hd)
    as (amp' & freq' & t' & base' & sm' & s0 & _ & _ & Hp' & Ht' & Hb' & Hsm'
        & Hs0 & _ & _ & _ & Hns0 & _).
  assert (t' = t) by congruence. subst t'.
  assert (base' = base) by congruence. subst base'.
  assert (sm' = sm) by congruence. subst sm'.
  assert (Hpp : profile amp' freq' = profile amp freq) by congruence.
  assert (Hamp : amp' = amp).
  { assert (H : profile amp' freq' !! "amp"%string
                = profile amp freq !! "amp"%string) by (rewrite Hpp; reflexivity).
    change (Some amp' = Some amp) in H. congruence. }
  assert (Hfreq : freq' = freq).
  { assert (H : profile amp' freq' !! "freq"%string
                = profile amp freq !! "freq"%string) by (rewrite Hpp; reflexivity).
    change (Some freq' = Some freq) in H. congruence. }
  subst amp' freq'.
  assert (Hnf : noise_free_signal task duration = s0).
  { unfold noise_free_signal. rewrite Ht. cbn [bind]. rewrite Hp.
    cbn [bind]. rewrite Hb. cbn [bind]. rewrite Hs0. reflexivity. }
  eexists. split; [exact Hg |]. simpl.
  split; [exact Hlo |]. split; [exact Hld |].
  intros i Hi.
  rewrite (Hno i Hi), (Hnd i Hi), (Hns i Hi), Hnf, (Hns0 i Hi), (Hnt i Hi).
  unfold drift_at, np.pi. split; lra.
Qed.





(** * Further properties of the script *)

(** ** The task table and the radio button *)

(** X1. A task name has an entry in the table exactly when it is one of
    the radio button's choices: a choice resolves to a profile that has
    both an amplitude in [0.2, 1.5] and a frequency in [0.1, 0.35], and
    any other name raises the lookup error on that name. *)
Theorem radio_options_resolve (task : string) :
  (In task tasks ->
   exists params amp freq,
     getitem task_params task = inr params
     /\ getitem params "amp" = inr amp
     /\ getitem params "freq" = inr freq
     /\ 0.2 <= amp <= 1.5
     /\ 0.1 <= freq <= 0.35)
  /\ (~ In task tasks -> getitem task_params task = inl (KeyError task)).
Proof.
  split; [| apply task_params_unknown].
  unfold tasks. simpl In.
  intros [<- | [<- | [<- | [<- | [<- | []]]]]];
    eexists _, _, _;
    (split; [reflexivity |]; split; [reflexivity |];
     split; [reflexivity |]; split; lra).
Qed.

Lemma radio_options_resolve_witness :
  In "Motor Task"%string tasks
  /\ (exists params amp freq,
        getitem task_params "Motor Task" = inr params
        /\ getitem params "amp" = inr amp
        /\ getitem params "freq" = inr freq
        /\ 0.2 <= amp <= 1.5
        /\ 0.1 <= freq <= 0.35)
  /\ ~ In "motor task"%string tasks
  /\ getitem task_params "motor task" = inl (KeyError "motor task").
Proof.
  assert (Hy : In "Motor Task"%string tasks) by (simpl; tauto).
  assert (Hn : ~ In "motor task"%string tasks).
  { unfold tasks. simpl In. intros [? | [? | [? | [? | [? | []]]]]];
      discriminate. }
  split; [exact Hy |].
  split; [exact (proj1 (radio_options_resolve "Motor Task") Hy) |].
  split; [exact Hn |].
  exact (proj2 (radio_options_resolve "motor task") Hn).
Defined.

(** ** The shape of the response function *)

Lemma hrf_formula_factored (x : R) :
  hrf_formula x
  = x ^ 6 * exp (- x) * (1 / 720 - 0.166 * x ^ 10 / 20922789888000).
Proof.
  unfold hrf_formula.
  change (math.product_upto 6) with 720%Z.
  change (math.product_upto 16) with 20922789888000%Z.
  field.
Qed.

Lemma hrf_formula_0 : hrf_formula 0 = 0.
Proof. rewrite hrf_formula_factored. simpl pow. ring. Qed.

Lemma hrf_formula_nonneg (x : R) : 0 <= x <= 13 -> 0 <= hrf_formula x.
Proof.
  intros [Hlo Hhi]. rewrite hrf_formula_factored.
  assert (H10 : x ^ 10 <= 137858491849).
  { replace 137858491849 with (13 ^ 10) by (simpl; lra).
    apply pow_incr. lra. }
  assert (H6 : 0 <= x ^ 6) by (apply pow_le; exact Hlo).
  pose proof (exp_pos (- x)) as He.
  apply Rmult_le_pos; [apply Rmult_le_pos; lra | lra].
Qed.

Lemma hrf_formula_negative (x : R) : 14 <= x -> hrf_formula x < 0.
Proof.
  intros Hx. rewrite hrf_formula_factored.
  assert (H10 : 289254654976 <= x ^ 10).
  { replace 289254654976 with (14 ^ 10) by (simpl; lra).
    apply pow_incr. lra. }
  assert (H6 : 0 < x ^ 6) by (apply pow_lt; lra).
  pose proof (exp_pos (- x)) as He.
  assert (Hp : 0 < x ^ 6 * exp (- x)) by (apply Rmult_lt_0_compat; lra).
  assert (Hb : 1 / 720 - 0.166 * x ^ 10 / 20922789888000 < 0) by lra.
  nra.
Qed.

(** X2. The response function is zero at 0, not negative from 0 to 13
    and negative from 14 to the end of the 30 second window: a positive
    lobe followed by an undershoot. *)
Theorem hrf_sign (x : R) :
  exists h, hrf [x] = inr [h]
    /\ (x = 0 -> h = 0)
    /\ (0 <= x <= 13 -> 0 <= h)
    /\ (14 <= x <= 30 -> h < 0).
Proof.
  exists (hrf_formula x). split; [apply hrf_spec |].
  split; [intros ->; apply hrf_formula_0 |].
  split; [apply hrf_formula_nonneg |].
  intros [Hlo _]. apply hrf_formula_negative. exact Hlo.
Qed.

Lemma hrf_sign_witness :
  (exists h, hrf [0] = inr [h] /\ 0 = 0 /\ h = 0)
  /\ (exists h, hrf [6] = inr [h] /\ 0 <= 6 <= 13 /\ 0 <= h)
  /\ (exists h, hrf [30] = inr [h] /\ 14 <= 30 <= 30 /\ h < 0).
Proof.
  split; [| split].
  - destruct (hrf_sign 0) as (h & Hh & H0 & _).
    exists h. split; [exact Hh |]. split; [reflexivity |].
    apply H0. reflexivity.
  - destruct (hrf_sign 6) as (h & Hh & _ & Hp & _).
    exists h. split; [exact Hh |]. split; [lra |]. apply Hp. lra.
  - destruct (hrf_sign 30) as (h & Hh & _ & _ & Hn).
    exists h. split; [exact Hh |]. split; [lra |]. apply Hn. lra.
Defined.

(** ** The two grids *)

(** X3. On a valid duration [d] every time sample lies in [0, d] and
    consecutive samples are more than a twentieth and less than a
    nineteenth of a second apart: with both end points in the grid, the
    [20 d] samples are spaced slightly wider than the 20 Hz of the
    comment. *)
Theorem time_step (duration : Z) :
  (5 <= duration <= 30)%Z ->
  exists t, time_vector duration = inr t
    /\ (forall i, (i < length t)%nat -> 0 <= nth i t 0 <= IZR duration)
    /\ forall i, (S i < length t)%nat ->
         1 / 20 < nth (S i) t 0 - nth i t 0 < 1 / 19.
Proof.
  intros Hd.
  destruct (time_vector_spec duration Hd) as (t & Ht & Hl & Hn).
  assert (Hz : IZR (duration * 20 - 1) = 20 * IZR duration - 1).
  { rewrite minus_IZR, mult_IZR. ring. }
  assert (H5 : 5 <= IZR duration) by (apply IZR_le; lia).
  exists t. split; [exact Ht |]. rewrite Hl. split.
  - intros i Hi. rewrite (Hn i Hi). apply instant_range; assumption.
  - intros i Hi. rewrite (Hn (S i) Hi), (Hn i) by lia.
    unfold instant. rewrite S_INR, Hz.
    set (step := IZR duration / (20 * IZR duration - 1)).
    assert (Hs : step * (20 * IZR duration - 1) = IZR duration)
      by (unfold step; field; lra).
    assert (Hlo : 1 / 20 < step).
    { apply (Rmult_lt_reg_r (20 * IZR duration - 1)); [lra |].
      rewrite Hs. lra. }
    assert (Hhi : step < 1 / 19).
    { apply (Rmult_lt_reg_r (20 * IZR duration - 1)); [lra |].
      rewrite Hs. lra. }
    lra.
Qed.

Lemma time_step_witness :
  (5 <= 15 <= 30)%Z
  /\ exists t, time_vector 15 = inr t
       /\ (forall i, (i < length t)%nat -> 0 <= nth i t 0 <= IZR 15)
       /\ forall i, (S i < length t)%nat ->
            1 / 20 < nth (S i) t 0 - nth i t 0 < 1 / 19.
Proof.
  assert (Hd : (5 <= 15 <= 30)%Z) by lia.
  split; [exact Hd |]. exact (time_step 15 Hd).
Defined.

Lemma hrf_instant_last (duration : Z) :
  (5 <= duration <= 30)%Z ->
  hrf_instant duration (samples duration - 1) = 30.
Proof.
  intros Hd. unfold hrf_instant.
  replace (INR (samples duration - 1)) with (IZR (duration * 20 - 1)).
  - field. apply not_0_IZR. lia.
  - rewrite INR_IZR_INZ. f_equal. unfold samples. lia.
Qed.

(** X4. Whatever the duration, the response function is sampled over the
    same 30 second window: the grid it is given runs from 0 to exactly
    30 while the time vector runs from 0 to the duration, the base
    response is 0 at the first sample and negative (the undershoot) at
    the last one, and the two grids are the same exactly when the
    duration is 30. *)
Theorem hrf_grid_spans_30 (duration : Z) :
  (5 <= duration <= 30)%Z ->
  exists t grid base,
    time_vector duration = inr t
    /\ np.linspace 0 30 (Z.of_nat (length t)) = inr grid
    /\ base_hrf t = inr base
    /\ length grid = length t
    /\ length base = length t
    /\ nth 0 grid 0 = 0
    /\ nth (length t - 1) grid 0 = 30
    /\ nth (length t - 1) t 0 = IZR duration
    /\ nth 0 base 0 = 0
    /\ nth (length t - 1) base 0 < 0
    /\ (grid = t <-> duration = 30%Z).
Proof.
  intros Hd.
  destruct (samples_bounds duration Hd) as [[Hlo _] Hz].
  destruct (time_vector_spec duration Hd) as (t & Ht & Hlt & Hnt).
  destruct (base_hrf_spec duration t Hd Hlt)
    as (grid & base & Hg & Hlg & Hng & Hb & _ & Hlb & Hnb).
  assert (Hg0 : nth 0 grid 0 = 0).
  { rewrite Hng by lia. unfold hrf_instant. simpl INR. ring. }
  assert (Hgl : nth (samples duration - 1) grid 0 = 30).
  { rewrite Hng by lia. apply hrf_instant_last. exact Hd. }
  assert (Htl : nth (samples duration - 1) t 0 = IZR duration).
  { rewrite Hnt by lia. apply instant_last. exact Hd. }
  exists t, grid, base. rewrite Hlt, Hz.
  split; [exact Ht |]. split; [exact Hg |]. split; [exact Hb |].
  split; [exact Hlg |]. split; [exact Hlb |]. split; [exact Hg0 |].
  split; [exact Hgl |]. split; [exact Htl |]. split; [| split; [| split]].
  - rewrite Hnb by lia. unfold hrf_instant. simpl INR.
    rewrite Rmult_0_l. apply hrf_formula_0.
  - rewrite Hnb by lia. rewrite hrf_instant_last by exact Hd.
    apply hrf_formula_negative. lra.
  - intros Heq. rewrite Heq, Htl in Hgl. apply eq_IZR. exact Hgl.
  - intros ->. apply (nth_ext grid t 0 0); [congruence |].
    intros i Hi. rewrite Hlg in Hi.
    rewrite (Hng i Hi), (Hnt i Hi). reflexivity.
Qed.

Lemma hrf_grid_spans_30_witness :
  (5 <= 30 <= 30)%Z
  /\ exists t grid base,
       time_vector 30 = inr t
       /\ np.linspace 0 30 (Z.of_nat (length t)) = inr grid
       /\ base_hrf t = inr base
       /\ length grid = length t
       /\ length base = length t
       /\ nth 0 grid 0 = 0
       /\ nth (length t - 1) grid 0 = 30
       /\ nth (length t - 1) t 0 = IZR 30
       /\ nth 0 base 0 = 0
       /\ nth (length t - 1) base 0 < 0
       /\ (grid = t <-> 30%Z = 30%Z).
Proof.
  assert (Hd : (5 <= 30 <= 30)%Z) by lia.
  split; [exact Hd |]. exact (hrf_grid_spans_30 30 Hd).
Defined.

(** ** Noise *)

(** X5. Noise acts sample by sample: on valid inputs, two runs that
    differ in their draws only have the same time vector, and at every
    index where the two streams hold the same draw the two runs have the
    same oxygenated and the same deoxygenated sample. *)
Theorem noise_is_samplewise (task : string) (duration : Z)
    (noise_level : R) (draws1 draws2 : nat -> R) :
  In task tasks ->
  (5 <= duration <= 30)%Z ->
  exists r1 r2,
    generate task duration noise_level draws1 = inr r1
    /\ generate task duration noise_level draws2 = inr r2
    /\ sim_t r1 = sim_t r2
    /\ Z.of_nat (length (sim_t r1)) = (duration * 20)%Z
    /\ forall i, (i < length (sim_t r1))%nat ->
         draws1 i = draws2 i ->
         nth i (sim_oxy r1) 0 = nth i (sim_oxy r2) 0
         /\ nth i (sim_deoxy r1) 0 = nth i (sim_deoxy r2) 0.
Proof.
  intros Htask Hd.
  destruct (samples_bounds duration Hd) as [_ Hz].
  destruct (generate_run task duration noise_level draws1 Htask Hd)
    as (amp & freq & t & base & sm & s & oxy & deoxy & _ & Ht & _ & _
        & _ & Hg & (Hlt & _) & _).
  destruct (generate_run task duration noise_level draws2 Htask Hd)
    as (amp' & freq' & t' & base' & sm' & s' & oxy' & deoxy' & _ & Ht' & _
        & _ & _ & Hg' & _).
  assert (t' = t) by congruence. subst t'.
  destruct (generate_noise task duration noise_level draws1 Htask Hd)
    as (r1 & Hr1 & _ & _ & Hn1).
  destruct (generate_noise task duration noise_level draws2 Htask Hd)
    as (r2 & Hr2 & _ & _ & Hn2).
  exists r1, r2. split; [exact Hr1 |]. split; [exact Hr2 |].
  rewrite Hg in Hr1. rewrite Hg' in Hr2.
  injection Hr1 as <-. injection Hr2 as <-. simpl.
  split; [reflexivity |]. rewrite Hlt. split; [exact Hz |].
  intros i Hi Hdraw.
  destruct (Hn1 i Hi) as [Ho1 Hd1]. destruct (Hn2 i Hi) as [Ho2 Hd2].
  simpl in Ho1, Hd1, Ho2, Hd2. rewrite Ho1, Hd1, Ho2, Hd2, Hdraw.
  split; reflexivity.
Qed.

Lemma noise_is_samplewise_witness :
  In "Cognitive Test"%string tasks /\ (5 <= 12 <= 30)%Z
  /\ exists r1 r2,
       generate "Cognitive Test" 12 0.3
         (fun i => if (i =? 3)%nat then 5 else 0) = inr r1
       /\ generate "Cognitive Test" 12 0.3 (fun _ => 0) = inr r2
       /\ sim_t r1 = sim_t r2
       /\ (7 < length (sim_t r1))%nat
       /\ (if (7 =? 3)%nat then 5 else 0) = 0
       /\ nth 7 (sim_oxy r1) 0 = nth 7 (sim_oxy r2) 0
       /\ nth 7 (sim_deoxy r1) 0 = nth 7 (sim_deoxy r2) 0.
Proof.
  split; [simpl; tauto |]. split; [lia |].
  destruct (noise_is_samplewise "Cognitive Test" 12 0.3
              (fun i => if (i =? 3)%nat then 5 else 0) (fun _ => 0)
              ltac:(simpl; tauto) ltac:(lia))
    as (r1 & r2 & H1 & H2 & Ht & Hl & Hn).
  assert (H7 : (7 < length (sim_t r1))%nat) by lia.
  exists r1, r2. split; [exact H1 |]. split; [exact H2 |].
  split; [exact Ht |]. split; [exact H7 |]. split; [reflexivity |].
  exact (Hn 7%nat H7 eq_refl).
Defined.

Lemma linspace_length (start stop : R) (num : Z) (l : list R) :
  np.linspace start stop num = inr l -> length l = Z.to_nat num.
Proof.
  unfold np.linspace.
  destruct (num <? 0)%Z; [discriminate |].
  intros H. injection H as <-.
  destruct (1 <? num)%Z; destruct (0 <? num - 1)%Z;
    rewrite ?length_insert, !length_map, length_seq; reflexivity.
Qed.

Lemma randn_ext (draws1 draws2 : nat -> R) (n : nat) :
  (forall i, (i < n)%nat -> draws1 i = draws2 i) ->
  np.random.randn draws1 n = np.random.randn draws2 n.
Proof.
  intros H. unfold np.random.randn. apply map_ext_in.
  intros i Hi. apply H. apply in_seq in Hi. lia.
Qed.

(** X6. A run reads the first [20 * duration] draws only: two streams of
    draws that agree there give the same outcome, result or error,
    whatever the task, the duration and the noise level. *)
Theorem only_first_draws_matter (task : string) (duration : Z)
    (noise_level : R) (draws1 draws2 : nat -> R) :
  (forall i, (i < Z.to_nat (duration * 20))%nat -> draws1 i = draws2 i) ->
  generate task duration noise_level draws1
  = generate task duration noise_level draws2.
Proof.
  intros Hdraws. unfold generate.
  destruct (time_vector duration) as [e | t] eqn:Ht; [reflexivity |].
  cbn [bind].
  destruct (getitem task_params task) as [e | p]; [reflexivity |].
  cbn [bind]. destruct (base_hrf t) as [e | b]; [reflexivity |].
  cbn [bind].
  assert (Hs : signal p t b noise_level draws1
               = signal p t b noise_level draws2).
  { unfold signal.
    rewrite (randn_ext draws1 draws2 (length t)); [reflexivity |].
    rewrite (linspace_length _ _ _ _ Ht). exact Hdraws. }
  rewrite Hs. reflexivity.
Qed.

Lemma only_first_draws_matter_witness :
  (forall i, (i < Z.to_nat (5 * 20))%nat ->
     (if (i <? 100)%nat then 1 else 2) = 1)
  /\ generate "Visual Task" 5 0.2 (fun i => if (i <? 100)%nat then 1 else 2)
     = generate "Visual Task" 5 0.2 (fun _ => 1).
Proof.
  assert (H : forall i, (i < Z.to_nat (5 * 20))%nat ->
                (if (i <? 100)%nat then 1 else 2) = 1).
  { intros i Hi. destruct (Nat.ltb_spec i 100) as [_ | Hge];
      [reflexivity | lia]. }
  split; [exact H |].
  exact (only_first_draws_matter "Visual Task" 5 0.2
           (fun i => if (i <? 100)%nat then 1 else 2) (fun _ => 1) H).
Defined.

(** ** The index and the messages *)



Lemma gt_quotient (c m den : R) :
  den <> 0 ->
  np.gt (np.divide m den) c = true
  <-> (0 < den /\ c * den < m) \/ (den < 0 /\ m < c * den).
Proof.
  intros Hden. unfold np.divide, np.gt.
  destruct (Req_dec_T den 0) as [? | _]; [contradiction |].
  assert (Hq : m / den * den = m) by (field; exact Hden).
  destruct (Rlt_dec c (m / den)) as [Hlt | Hge]; split; intros H;
    try reflexivity; try discriminate.
  - destruct (Rtotal_order den 0) as [Hn | [Hz | Hp]]; [| contradiction |].
    + right. split; [exact Hn |]. nra.
    + left. split; [exact Hp |]. nra.
  - exfalso. apply Hge. destruct H as [[Hp H] | [Hn H]]; nra.
Qed.

(** X8. The message as a function of the two means [m = mean(oxy)] and
    [a = |mean(deoxy)| + 1e-5], for non-empty channels: high when
    [0.45 m > 0.55 a], moderate when [0.55 m > 0.45 a] but not high, low
    when [0.55 m <= 0.45 a] and [m >= - a]; and high again when
    [m < - a], where the index exceeds 1. *)
Theorem label_by_means (oxy deoxy : list R) :
  oxy <> [] -> deoxy <> [] ->
  (np.mean oxy < - (Rabs (np.mean deoxy) + 1e-5) ->
   classify (coi oxy deoxy) = HighOxygenation)
  /\ (0.55 * (Rabs (np.mean deoxy) + 1e-5) < 0.45 * np.mean oxy ->
      classify (coi oxy deoxy) = HighOxygenation)
  /\ (0.45 * (Rabs (np.mean deoxy) + 1e-5) < 0.55 * np.mean oxy ->
      0.45 * np.mean oxy <= 0.55 * (Rabs (np.mean deoxy) + 1e-5) ->
      classify (coi oxy deoxy) = ModerateOxygenation)
  /\ (- (Rabs (np.mean deoxy) + 1e-5) <= np.mean oxy ->
      0.55 * np.mean oxy <= 0.45 * (Rabs (np.mean deoxy) + 1e-5) ->
      classify (coi oxy deoxy) = LowOxygenation).
Proof.
  intros _ _.
  pose proof (Rabs_pos (np.mean deoxy)) as Habs.
  assert (Hden : coi_denominator oxy deoxy
                 = np.mean oxy + (Rabs (np.mean deoxy) + 1e-5))
    by (unfold coi_denominator; ring).
  unfold classify, coi. rewrite Hden.
  clear Hden.
  remember (np.mean oxy) as m eqn:Em.
  remember (Rabs (np.mean deoxy) + 1e-5) as a eqn:Ea.
  assert (Hpos : 0 < a) by (subst a; lra).
  clear Em Ea Habs.
  destruct (Req_dec_T (m + a) 0) as [Hz | Hnz].
  - (* the denominator vanishes: the quotient is minus infinity *)
    assert (Hinf : np.divide m (m + a) = np.Inf true).
    { unfold np.divide.
      destruct (Req_dec_T (m + a) 0) as [_ | ?]; [| contradiction].
      destruct (Req_dec_T m 0) as [? | _]; [lra |].
      destruct (Rlt_dec m 0) as [_ | ?]; [reflexivity | lra]. }
    rewrite Hinf. simpl.
    repeat split; intros; try reflexivity; lra.
  - pose proof (gt_quotient 0.55 m (m + a) Hnz) as H55.
    pose proof (gt_quotient 0.45 m (m + a) Hnz) as H45.
    assert (F55 : 0 < m + a -> m <= 0.55 * (m + a) ->
                  np.gt (np.divide m (m + a)) 0.55 = false).
    { intros Hp Hle. destruct (np.gt (np.divide m (m + a)) 0.55);
        [| reflexivity].
      destruct (proj1 H55 eq_refl) as [[_ H] | [H _]]; lra. }
    assert (F45 : 0 < m + a -> m <= 0.45 * (m + a) ->
                  np.gt (np.divide m (m + a)) 0.45 = false).
    { intros Hp Hle. destruct (np.gt (np.divide m (m + a)) 0.45);
        [| reflexivity].
      destruct (proj1 H45 eq_refl) as [[_ H] | [H _]]; lra. }
    split; [| split; [| split]].
    + intros Hm. rewrite (proj2 H55) by (right; split; lra). reflexivity.
    + intros Hm. rewrite (proj2 H55) by (left; split; lra). reflexivity.
    + intros H1 H2. rewrite F55 by lra.
      rewrite (proj2 H45) by (left; split; lra). reflexivity.
    + intros H1 H2.
      assert (0 < m + a) by (destruct (Rtotal_order (m + a) 0)
                               as [? | [? | ?]]; lra).
      rewrite F55, F45 by lra. reflexivity.
Qed.

Lemma mean_singleton (x : R) : np.mean [x] = x.
Proof. unfold np.mean, np.sum. simpl. field. Qed.

Lemma label_by_means_witness :
  ([-1] <> [] /\ [0] <> []
   /\ np.mean [-1] < - (Rabs (np.mean [0]) + 1e-5)
   /\ classify (coi [-1] [0]) = HighOxygenation)
  /\ ([2] <> [] /\ [0] <> []
      /\ 0.55 * (Rabs (np.mean [0]) + 1e-5) < 0.45 * np.mean [2]
      /\ classify (coi [2] [0]) = HighOxygenation)
  /\ ([1] <> [] /\ [-1] <> []
      /\ 0.45 * (Rabs (np.mean [-1]) + 1e-5) < 0.55 * np.mean [1]
      /\ 0.45 * np.mean [1] <= 0.55 * (Rabs (np.mean [-1]) + 1e-5)
      /\ classify (coi [1] [-1]) = ModerateOxygenation)
  /\ ([0] <> [] /\ [1] <> []
      /\ - (Rabs (np.mean [1]) + 1e-5) <= np.mean [0]
      /\ 0.55 * np.mean [0] <= 0.45 * (Rabs (np.mean [1]) + 1e-5)
      /\ classify (coi [0] [1]) = LowOxygenation).
Proof.
  assert (Hne : forall x : R, [x] <> []) by (intros x; discriminate).
  assert (A0 : Rabs (np.mean [0]) = 0)
    by (rewrite mean_singleton; apply Rabs_R0).
  assert (A1 : Rabs (np.mean [1]) = 1)
    by (rewrite mean_singleton; apply Rabs_pos_eq; lra).
  assert (Am : Rabs (np.mean [-1]) = 1).
  { rewrite mean_singleton. unfold Rabs.
    destruct (Rcase_abs (-1)) as [_ | ?]; lra. }
  assert (H1 : np.mean [-1] < - (Rabs (np.mean [0]) + 1e-5))
    by (rewrite A0, mean_singleton; lra).
  assert (H2 : 0.55 * (Rabs (np.mean [0]) + 1e-5) < 0.45 * np.mean [2])
    by (rewrite A0, mean_singleton; lra).
  assert (H3 : 0.45 * (Rabs (np.mean [-1]) + 1e-5) < 0.55 * np.mean [1])
    by (rewrite Am, mean_singleton; lra).
  assert (H3' : 0.45 * np.mean [1] <= 0.55 * (Rabs (np.mean [-1]) + 1e-5))
    by (rewrite Am, mean_singleton; lra).
  assert (H4 : - (Rabs (np.mean [1]) + 1e-5) <= np.mean [0])
    by (rewrite A1, mean_singleton; lra).
  assert (H4' : 0.55 * np.mean [0] <= 0.45 * (Rabs (np.mean [1]) + 1e-5))
    by (rewrite A1, mean_singleton; lra).
  split; [| split; [| split]].
  - split; [apply Hne |]. split; [apply Hne |]. split; [exact H1 |].
    exact (proj1 (label_by_means [-1] [0] (Hne _) (Hne _)) H1).
  - split; [apply Hne |]. split; [apply Hne |]. split; [exact H2 |].
    exact (proj1 (proj2 (label_by_means [2] [0] (Hne _) (Hne _))) H2).
  - split; [apply Hne |]. split; [apply Hne |]. split; [exact H3 |].
    split; [exact H3' |].
    exact (proj1 (proj2 (proj2 (label_by_means [1] [-1] (Hne _) (Hne _))))
             H3 H3').
  - split; [apply Hne |]. split; [apply Hne |]. split; [exact H4 |].
    split; [exact H4' |].
    exact (proj2 (proj2 (proj2 (label_by_means [0] [1] (Hne _) (Hne _))))
             H4 H4').
Defined.

(** X9. On valid inputs a press of the button shows the result of the
    run with the message of its index.  The index is finite or minus
    infinity, never NaN and never plus infinity; it is minus infinity only
    for a negative mean oxygenated sample, and the low message is shown
    then. *)
Theorem app_shows_run (task : string) (duration : Z) (noise_level : R)
    (draws : nat -> R) :
  In task tasks ->
  (5 <= duration <= 30)%Z ->
  exists r,
    generate task duration noise_level draws = inr r
    /\ app true task duration noise_level draws
       = inr (Shown r (classify (sim_coi r)))
    /\ ((exists q, sim_coi r = np.Finite q)
        \/ (sim_coi r = np.Inf true
            /\ np.mean (sim_oxy r) < 0
            /\ classify (sim_coi r) = LowOxygenation)).
Proof.
  intros Htask Hd.
  destruct (generate_run task duration noise_level draws Htask Hd)
    as (amp & freq & t & base & sm & s & oxy & deoxy & _ & _ & _ & _
        & _ & Hg & _).
  eexists. split; [exact Hg |]. split.
  - unfold app. rewrite Hg. reflexivity.
  - simpl. unfold coi, np.divide.
    pose proof (Rabs_pos (np.mean deoxy)) as Habs.
    destruct (Req_dec_T (coi_denominator oxy deoxy) 0) as [Hz | _];
      [| left; eexists; reflexivity].
    right. unfold coi_denominator in Hz.
    assert (Hm : np.mean oxy < 0) by lra.
    destruct (Req_dec_T (np.mean oxy) 0) as [? | _]; [lra |].
    destruct (Rlt_dec (np.mean oxy) 0) as [_ | ?]; [| lra].
    split; [reflexivity |]. split; [exact Hm | reflexivity].
Qed.

Lemma app_shows_run_witness :
  In "Language Task"%string tasks /\ (5 <= 25 <= 30)%Z
  /\ exists r,
       generate "Language Task" 25 0.4 (fun i => INR i / 3) = inr r
       /\ app true "Language Task" 25 0.4 (fun i => INR i / 3)
          = inr (Shown r (classify (sim_coi r)))
       /\ ((exists q, sim_coi r = np.Finite q)
           \/ (sim_coi r = np.Inf true
               /\ np.mean (sim_oxy r) < 0
               /\ classify (sim_coi r) = LowOxygenation)).
Proof.
  split; [simpl; tauto |]. split; [lia |].
  apply (app_shows_run "Language Task" 25 0.4 (fun i => INR i / 3));
    [simpl; tauto | lia].
Defined.

(** ** Inputs outside the sliders *)

Lemma linspace_ok (start stop : R) (num : Z) :
  (0 <= num)%Z ->
  exists l, np.linspace start stop num = inr l /\ length l = Z.to_nat num.
Proof.
  intros Hnum.
  destruct (np.linspace start stop num) as [e | l] eqn:E.
  - unfold np.linspace in E.
    destruct (Z.ltb_spec num 0) as [? | _]; [lia | discriminate].
  - exists l. split; [reflexivity |]. exact (linspace_length _ _ _ _ E).
Qed.

Lemma generate_negative_duration (task : string) (duration : Z)
    (noise_level : R) (draws : nat -> R) :
  (duration < 0)%Z ->
  exists msg,
    generate task duration noise_level draws = inl (ValueError msg).
Proof.
  intros Hd. unfold generate, time_vector, np.linspace.
  destruct (Z.ltb_spec (duration * 20) 0) as [_ | ?]; [| lia].
  eexists. reflexivity.
Qed.

Lemma generate_unknown_task (task : string) (duration : Z)
    (noise_level : R) (draws : nat -> R) :
  (0 <= duration)%Z -> ~ In task tasks ->
  generate task duration noise_level draws = inl (KeyError task).
Proof.
  intros Hd Hn. unfold generate, time_vector.
  destruct (linspace_ok 0 (IZR duration) (duration * 20)) as (t & Ht & _);
    [lia |].
  rewrite Ht. cbn [bind]. rewrite (task_params_unknown task Hn).
  reflexivity.
Qed.

Lemma generate_zero_duration (task : string) (noise_level : R)
    (draws : nat -> R) :
  In task tasks ->
  exists msg, generate task 0 noise_level draws = inl (ValueError msg).
Proof.
  intros Htask.
  destruct (task_params_known task Htask) as (amp & freq & Hp & _ & _).
  destruct (linspace_ok 0 (IZR 0) (0 * 20)) as (t & Ht & Hl); [lia |].
  destruct t as [| x t]; [| simpl in Hl; discriminate].
  unfold generate, time_vector. rewrite Ht. cbn [bind].
  rewrite Hp. cbn [bind].
  assert (Hb : base_hrf [] = inr []).
  { unfold base_hrf. simpl length.
    destruct (linspace_ok 0 30 (Z.of_nat 0)) as (g & Hg & Hlg); [lia |].
    destruct g as [| y g]; [| simpl in Hlg; discriminate].
    rewrite Hg. cbn [bind]. apply hrf_spec. }
  rewrite Hb. cbn [bind].
  unfold signal.
  change (getitem (profile amp freq) "amp") with (@inr exn R amp).
  change (getitem (profile amp freq) "freq") with (@inr exn R freq).
  cbn [bind]. unfold smoothed_hrf, np.convolve_same. simpl.
  eexists. reflexivity.
Qed.

Lemma generate_from_one (task : string) (duration : Z) (noise_level : R)
    (draws : nat -> R) :
  In task tasks ->
  (1 <= duration)%Z ->
  exists r, generate task duration noise_level draws = inr r
    /\ Z.of_nat (length (sim_t r)) = (duration * 20)%Z
    /\ length (sim_oxy r) = length (sim_t r)
    /\ length (sim_deoxy r) = length (sim_t r).
Proof.
  intros Htask Hd.
  destruct (task_params_known task Htask) as (amp & freq & Hp & _ & _).
  destruct (linspace_ok 0 (IZR duration) (duration * 20))
    as (t & Ht & Hlt); [lia |].
  destruct (linspace_ok 0 30 (Z.of_nat (length t))) as (g & Hg & Hlg);
    [lia |].
  rewrite Nat2Z.id in Hlg.
  assert (Hb : base_hrf t = inr (map hrf_formula g)).
  { unfold base_hrf. rewrite Hg. cbn [bind]. apply hrf_spec. }
  destruct (signal_spec amp freq noise_level draws t (map hrf_formula g))
    as (sm & s & _ & _ & Hs & Hls & _);
    [rewrite length_map; lia | rewrite length_map; congruence |].
  rewrite length_map in Hls.
  assert (Hldr : length (drift t) = length t)
    by (unfold drift; rewrite length_sin, length_scale; reflexivity).
  eexists. split.
  - unfold generate, time_vector. rewrite Ht. cbn [bind].
    rewrite Hp. cbn [bind]. rewrite Hb. cbn [bind]. rewrite Hs.
    cbn [bind].
    rewrite (add_same_length s (np.scale 0.5 (drift t)))
      by (rewrite length_scale; congruence).
    cbn [bind].
    rewrite (add_same_length (np.scale (-0.6) s) (np.scale 0.2 (drift t)))
      by (rewrite !length_scale; congruence).
    reflexivity.
  - simpl. rewrite !length_zip_with by (rewrite ?length_scale; congruence).
    rewrite length_scale.
    split; [lia |]. split; congruence.
Qed.

(** X11. Outside the sliders' ranges the run fails in the order of the
    script's lines: a negative duration raises a ValueError whatever the
    task (line 59), a name outside the table raises the lookup error for
    every duration that is not negative (line 60), and a zero duration
    with a valid task raises a ValueError from the smoothing of an empty
    array (line 66). *)
Theorem generate_rejects_bad_inputs (task : string) (duration : Z)
    (noise_level : R) (draws : nat -> R) :
  ((duration < 0)%Z ->
   exists msg,
     generate task duration noise_level draws = inl (ValueError msg))
  /\ ((0 <= duration)%Z -> ~ In task tasks ->
      generate task duration noise_level draws = inl (KeyError task))
  /\ (duration = 0%Z -> In task tasks ->
      exists msg,
        generate task duration noise_level draws = inl (ValueError msg)).
Proof.
  split; [apply generate_negative_duration |].
  split; [apply generate_unknown_task |].
  intros ->. apply generate_zero_duration.
Qed.

Lemma generate_rejects_bad_inputs_witness :
  ((-3 < 0)%Z
   /\ exists msg,
        generate "Unknown" (-3) 0.1 (fun _ => 0) = inl (ValueError msg))
  /\ ((0 <= 0)%Z /\ ~ In "Unknown"%string tasks
      /\ generate "Unknown" 0 0.1 (fun _ => 0) = inl (KeyError "Unknown"))
  /\ (0%Z = 0%Z /\ In "Visual Task"%string tasks
      /\ exists msg,
           generate "Visual Task" 0 0.1 (fun _ => 0)
           = inl (ValueError msg)).
Proof.
  assert (Hn : ~ In "Unknown"%string tasks).
  { unfold tasks. simpl In. intros [? | [? | [? | [? | [? | []]]]]];
      discriminate. }
  assert (Hy : In "Visual Task"%string tasks) by (simpl; tauto).
  split; [| split].
  - split; [lia |].
    exact (proj1 (generate_rejects_bad_inputs "Unknown" (-3) 0.1
                    (fun _ => 0)) ltac:(lia)).
  - split; [lia |]. split; [exact Hn |].
    exact (proj1 (proj2 (generate_rejects_bad_inputs "Unknown" 0 0.1
                           (fun _ => 0))) ltac:(lia) Hn).
  - split; [reflexivity |]. split; [exact Hy |].
    exact (proj2 (proj2 (generate_rejects_bad_inputs "Visual Task" 0 0.1
                           (fun _ => 0))) eq_refl Hy).
Defined.

(** X12. A run returns a result exactly when the task is one of the
    table and the duration is at least 1; the slider's bounds 5 and 30
    are not needed.  Every result has [20 * duration] samples in each of
    its three sequences. *)
Theorem generate_succeeds_iff (task : string) (duration : Z)
    (noise_level : R) (draws : nat -> R) :
  ((exists r, generate task duration noise_level draws = inr r)
   <-> In task tasks /\ (1 <= duration)%Z)
  /\ forall r, generate task duration noise_level draws = inr r ->
       Z.of_nat (length (sim_t r)) = (duration * 20)%Z
       /\ length (sim_oxy r) = length (sim_t r)
       /\ length (sim_deoxy r) = length (sim_t r).
Proof.
  assert (Hdom : (exists r, generate task duration noise_level draws = inr r)
                 -> In task tasks /\ (1 <= duration)%Z).
  { intros [r Hr].
    destruct (Z.lt_ge_cases duration 0) as [Hneg | Hnn].
    { destruct (generate_negative_duration task duration noise_level draws
                  Hneg) as [msg Hm]. congruence. }
    destruct (in_dec string_dec task tasks) as [Hin | Hnin].
    - split; [exact Hin |].
      destruct (Z.eq_dec duration 0%Z) as [-> | ?]; [| lia].
      destruct (generate_zero_duration task noise_level draws Hin)
        as [msg Hm]. congruence.
    - rewrite (generate_unknown_task task duration noise_level draws
                 Hnn Hnin) in Hr. discriminate. }
  split.
  - split; [exact Hdom |].
    intros [Hin Hd].
    destruct (generate_from_one task duration noise_level draws Hin Hd)
      as (r & Hr & _). exists r. exact Hr.
  - intros r Hr. destruct (Hdom (ex_intro _ r Hr)) as [Hin Hd].
    destruct (generate_from_one task duration noise_level draws Hin Hd)
      as (r' & Hr' & Hl).
    assert (r' = r) by congruence. subst r'. exact Hl.
Qed.

Lemma generate_succeeds_iff_witness :
  In "Resting State"%string tasks /\ (1 <= 1)%Z
  /\ exists r, generate "Resting State" 1 0.1 (fun _ => 0) = inr r
       /\ Z.of_nat (length (sim_t r)) = (1 * 20)%Z
       /\ length (sim_oxy r) = length (sim_t r)
       /\ length (sim_deoxy r) = length (sim_t r).
Proof.
  assert (Hy : In "Resting State"%string tasks) by (simpl; tauto).
  assert (Hd : (1 <= 1)%Z) by lia.
  split; [exact Hy |]. split; [exact Hd |].
  destruct (proj2 (proj1 (generate_succeeds_iff "Resting State" 1 0.1
                            (fun _ => 0))) (conj Hy Hd)) as [r Hr].
  exists r. split; [exact Hr |].
  exact (proj2 (generate_succeeds_iff "Resting State" 1 0.1 (fun _ => 0))
           r Hr).
Defined.
